(** * Progressive tool disclosure and the MCP HTTP bridge

    Shallow embedding of [src/src/app/api/chat/route.ts]
    ([TOOL_CATEGORIES], [getEnabledTools], [POST]) and of
    [src/src/lib/mcp-http-client.ts] ([jsonRpcRequest],
    [ensureObjectSchema], [createMCPTools]).

    A [ToolSet] (a JS object from tool name to tool) is a [gmap string A];
    the JS [Set<string>] of enabled names is a [gset string]. *)

From stdpp Require Import base gmap sets list strings pretty.
From Stdlib Require Import ZArith Ascii.
Open Scope string_scope.
#[local] Set Warnings "-register-all".

(* ------------------------------------------------------------------ *)
(** ** Conversation history as seen by [prepareStep] *)

(** [{ toolName: string }] *)
Record ToolCall := mkToolCall { toolName : string }.

(** [{ toolCalls?: Array<{ toolName: string }> }] *)
Record Step := mkStep { toolCalls : option (list ToolCall) }.

(* ------------------------------------------------------------------ *)
(** ** [TOOL_CATEGORIES] *)

Module TOOL_CATEGORIES.

Definition safe : list string :=
  ["get_current_time"; "list_devices"; "get_page_info"; "get_page_elements";
   "list_tabs"; "get_terminal_output"; "list_terminals"; "get_session_info";
   "list_sessions"; "recall_memory"; "get_console_logs";
   "list_viewport_presets"; "visual_list_baselines"; "voice_status";
   "supabase_query"].

Definition navigation : list string :=
  ["navigate_browser"; "create_tab"; "switch_tab"].

Definition interaction : list string :=
  ["click_element"; "fill_input"; "scroll_page"; "hover_element"; "send_key";
   "wait_for_element"; "query_element"; "execute_javascript";
   "take_screenshot"; "set_viewport"; "visual_save_baseline";
   "visual_compare"].

Definition terminal : list string :=
  ["send_terminal_command"; "create_terminal"; "spawn_claude_session";
   "send_to_session"; "broadcast_to_agents"].

Definition database_write : list string :=
  ["supabase_insert"; "supabase_update"; "supabase_delete"].

Definition destructive : list string := ["close_tab"].

Definition memory : list string := ["store_memory"].

Definition voice : list string :=
  ["voice_speak"; "voice_start_listening"; "voice_stop_listening"].

Definition agent_draft : list string :=
  ["draft_to_agent"; "get_agent_input"; "edit_agent_input";
   "clear_agent_input"; "get_agent_conversation"; "wait_for_agent_response";
   "list_agent_sessions"; "get_session_output"].

End TOOL_CATEGORIES.

(* ------------------------------------------------------------------ *)
(** ** [getEnabledTools] *)

Section Gate.

(** [s.toolCalls?.map(c => c.toolName) || []] *)
Definition stepToolNames (s : Step) : list string :=
  match toolCalls s with
  | Some cs => map toolName cs
  | None => []
  end.

(** [new Set(previousSteps.flatMap(...))] *)
Definition usedTools (previousSteps : list Step) : gset string :=
  list_to_set (flat_map stepToolNames previousSteps).

(** [usedTools.has('navigate_browser') || usedTools.has('create_tab')] *)
Definition hasNavigated (previousSteps : list Step) : bool :=
  bool_decide ("navigate_browser" ∈ usedTools previousSteps)
  || bool_decide ("create_tab" ∈ usedTools previousSteps).

(** [s.toolCalls?.some(c => c.toolName === 'take_screenshot')]; an absent
    [toolCalls] gives [undefined], which [filter] treats as false. *)
Definition stepHasScreenshot (s : Step) : bool :=
  match toolCalls s with
  | Some cs => existsb (fun c => String.eqb (toolName c) "take_screenshot") cs
  | None => false
  end.

(** [previousSteps.filter(...).length] *)
Definition screenshotCount (previousSteps : list Step) : nat :=
  length (filter (fun s => stepHasScreenshot s = true) previousSteps).

(** [names.forEach(t => set.add(t))] *)
Definition add_all (names : list string) (set : gset string) : gset string :=
  foldl (fun acc t => {[t]} ∪ acc) set names.

(** The [enabledToolNames] set after all the statements of
    [getEnabledTools], in source order. *)
Definition enabledToolNames (previousSteps : list Step) : gset string :=
  let used := usedTools previousSteps in
  let nav := hasNavigated previousSteps in
  let shots := screenshotCount previousSteps in
  let s := add_all TOOL_CATEGORIES.safe ∅ in
  let s := add_all TOOL_CATEGORIES.navigation s in
  let s :=
    if nav then
      let s := add_all TOOL_CATEGORIES.interaction s in
      if Nat.leb 5 shots then s ∖ {[ "take_screenshot" ]} else s
    else s in
  let s := add_all TOOL_CATEGORIES.terminal s in
  let s := add_all TOOL_CATEGORIES.database_write s in
  let s :=
    if nav || bool_decide ("list_tabs" ∈ used)
    then add_all TOOL_CATEGORIES.destructive s else s in
  let s := add_all TOOL_CATEGORIES.memory s in
  let s := add_all TOOL_CATEGORIES.voice s in
  add_all TOOL_CATEGORIES.agent_draft s.

(** The final loop over [Object.entries(allTools)], keeping the entries
    whose name is enabled. *)
Definition getEnabledTools {A : Type} (allTools : gmap string A)
    (previousSteps : list Step) : gmap string A :=
  let names := enabledToolNames previousSteps in
  filter (fun kv => kv.1 ∈ names) allTools.

End Gate.

(* ------------------------------------------------------------------ *)
(** ** JavaScript values *)

(** The JS values that reach the bridge (parsed JSON, plus [undefined]).
    Numbers are restricted to integers, which is all the bridge inspects. *)
Inductive jsval : Type :=
  | JUndefined
  | JNull
  | JBool (b : bool)
  | JNumber (z : Z)
  | JString (s : string)
  | JArray (elems : list jsval)
  | JObject (fields : list (string * jsval)).

Fixpoint field (fs : list (string * jsval)) (k : string) : jsval :=
  match fs with
  | [] => JUndefined
  | (k', v) :: fs' => if String.eqb k k' then v else field fs' k
  end.

(** [v.k] on a value that is not [null] or [undefined]: only objects
    have the fields the bridge reads. *)
Definition get (v : jsval) (k : string) : jsval :=
  match v with
  | JObject fs => field fs k
  | _ => JUndefined
  end.

(** [Object.keys(v)] of an object. *)
Definition keys (v : jsval) : list string :=
  match v with
  | JObject fs => map fst fs
  | _ => []
  end.

(** JS truthiness ([!v], [v || d]). *)
Definition truthy (v : jsval) : bool :=
  match v with
  | JUndefined | JNull => false
  | JBool b => b
  | JNumber z => negb (Z.eqb z 0)
  | JString s => negb (String.eqb s "")
  | JArray _ | JObject _ => true
  end.

(** [v === 'object'] *)
Definition is_object_literal (v : jsval) : bool :=
  match v with
  | JString s => String.eqb s "object"
  | _ => false
  end.

(** [String(v)], as used by template literals and property keys; the
    elements of an array are joined with [","], [null] and [undefined]
    ones printing as the empty string. *)
Fixpoint js_to_string (v : jsval) : string :=
  match v with
  | JUndefined => "undefined"
  | JNull => "null"
  | JBool b => if b then "true" else "false"
  | JNumber z => pretty z
  | JString s => s
  | JArray vs =>
      let elem w := match w with
                    | JUndefined | JNull => ""
                    | _ => js_to_string w
                    end in
      (fix join (vs : list jsval) : string :=
         match vs with
         | [] => ""
         | [w] => elem w
         | w :: vs' => elem w ++ "," ++ join vs'
         end) vs
  | JObject _ => "[object Object]"
  end.

(** [JSON.stringify] applied to a value: members whose value is
    [undefined] are dropped from objects and become [null] in arrays.
    Returned as the JSON tree rather than as text. *)
Fixpoint to_json (v : jsval) : jsval :=
  match v with
  | JUndefined => JUndefined
  | JArray vs =>
      JArray (map (fun w => match to_json w with JUndefined => JNull | j => j end) vs)
  | JObject fs =>
      JObject ((fix go (fs : list (string * jsval)) :=
                  match fs with
                  | [] => []
                  | (k, w) :: fs' =>
                      match to_json w with
                      | JUndefined => go fs'
                      | j => (k, j) :: go fs'
                      end
                  end) fs)
  | _ => v
  end.

(* ------------------------------------------------------------------ *)
(** ** [ensureObjectSchema] *)

(** [{ type: 'object', properties: {} }] *)
Definition defaultSchema : jsval :=
  JObject [("type", JString "object"); ("properties", JObject [])].

Definition ensureObjectSchema (schema : jsval) : jsval :=
  if negb (truthy schema) then defaultSchema
  else if is_object_literal (get schema "type") then
    JObject [("type", JString "object");
             ("properties",
               let p := get schema "properties" in
               if truthy p then p else JObject []);
             ("required", get schema "required")]
  else defaultSchema.

(** Root-level JSON Schema validation of an argument value against the
    keywords [ensureObjectSchema] emits: [type: 'object'] requires an
    object, and [required] (an array of names) requires those members.
    A schema whose [properties] is [{}] and which has no
    [additionalProperties] constrains nothing else. *)
Definition conforms_root (schema args : jsval) : bool :=
  let type_ok :=
    if is_object_literal (get schema "type")
    then match args with JObject _ => true | _ => false end
    else true in
  let required_ok :=
    match get schema "required" with
    | JArray names =>
        forallb (fun n => match n with
                          | JString k => match get args k with
                                         | JUndefined => false
                                         | _ => true
                                         end
                          | _ => true
                          end) names
    | _ => true
    end in
  type_ok && required_ok.

(* ------------------------------------------------------------------ *)
(** ** [jsonRpcRequest], [createMCPTools] and the [POST] handler *)

(** Exceptions thrown along the way, with their [message]. *)
Inductive exn : Type :=
  | Error (message : string)
  | TypeError (message : string)
  | SyntaxError (message : string).

Definition exn_message (e : exn) : string :=
  match e with
  | Error m | TypeError m | SyntaxError m => m
  end.

(** What [await fetch(...)] and [await response.text()] produce. *)
Inductive FetchOutcome : Type :=
  | FetchRejected (e : exn)
  | FetchResponse (ok : bool) (status : Z) (statusText : string)
      (body : string).

(** Lines of a body as seen by a multiline regex ([\n] and [\r] end a
    line). *)
Fixpoint split_lines_acc (s : string) (cur : string) : list string :=
  match s with
  | EmptyString => [cur]
  | String c s' =>
      if (Ascii.eqb c "010"%char || Ascii.eqb c "013"%char)%bool
      then cur :: split_lines_acc s' ""
      else split_lines_acc s' (cur ++ String c "")
  end.

Definition split_lines (s : string) : list string := split_lines_acc s "".

(** [text.match(/^data: (.+)$/m)], returning capture group 1. *)
Definition dataMatch (text : string) : option string :=
  let pre := "data: " in
  let hit l := (String.prefix pre l && Nat.ltb (String.length pre) (String.length l))%bool in
  match List.find hit (split_lines text) with
  | Some l => Some (String.substring (String.length pre)
                      (String.length l - String.length pre) l)
  | None => None
  end.

Section Bridge.

(** [JSON.parse] (left: the [SyntaxError] message) and [JSON.stringify]
    of the host. *)
Variable JSON_parse : string -> string + jsval.
Variable JSON_stringify : jsval -> string.

(** [v.k], throwing on [null] and [undefined] as JS does. *)
Definition getp (v : jsval) (k : string) : exn + jsval :=
  match v with
  | JUndefined | JNull =>
      inl (TypeError ("Cannot read properties of " ++ js_to_string v ++
                      " (reading '" ++ k ++ "')"))
  | _ => inr (get v k)
  end.

(** [`MCP error: ${result.error.message || JSON.stringify(result.error)}`] *)
Definition mcpErrorMessage (err : jsval) : string :=
  let m := get err "message" in
  "MCP error: " ++ (if truthy m then js_to_string m else JSON_stringify err).

(** The envelope check after [JSON.parse]: [if (result.error) throw ...;
    return result.result]. *)
Definition checkEnvelope (result : jsval) : exn + jsval :=
  match getp result "error" with
  | inl e => inl e
  | inr err =>
      if truthy err then inl (Error (mcpErrorMessage err))
      else getp result "result"
  end.

Definition jsonRpcRequest (out : FetchOutcome) : exn + jsval :=
  match out with
  | FetchRejected e => inl e
  | FetchResponse false status statusText _ =>
      inl (Error ("MCP request failed: " ++ pretty status ++ " " ++ statusText))
  | FetchResponse true _ _ text =>
      match dataMatch text with
      | None =>
          (* every exception of the [try] block, the envelope's own
             [MCP error] included, is replaced by the [catch] *)
          match JSON_parse text with
          | inr result =>
              match checkEnvelope result with
              | inr v => inr v
              | inl _ => inl (Error ("Failed to parse MCP response: " ++ String.substring 0 200 text))
              end
          | inl _ => inl (Error ("Failed to parse MCP response: " ++ String.substring 0 200 text))
          end
      | Some data =>
          match JSON_parse data with
          | inl msg => inl (SyntaxError msg)
          | inr result => checkEnvelope result
          end
      end
  end.

(** One converted tool: [tool({ description, inputSchema, execute })];
    [execute] is kept apart (it is the [tools/call] round trip). *)
Record ToolDef := mkToolDef { description : jsval; inputSchema : jsval }.

(** The [for (const mcpTool of mcpTools)] loop: [tools[mcpTool.name] =
    tool(...)], a later tool of the same name replacing an earlier one. *)
Fixpoint convertTools (mcpTools : list jsval) (tools : gmap string ToolDef)
    : exn + gmap string ToolDef :=
  match mcpTools with
  | [] => inr tools
  | mcpTool :: rest =>
      match getp mcpTool "inputSchema" with
      | inl e => inl e
      | inr sch =>
          let name := get mcpTool "name" in
          let d := get mcpTool "description" in
          let def := {| description :=
                          if truthy d then d
                          else JString ("MCP tool: " ++ js_to_string name);
                        inputSchema := ensureObjectSchema sch |} in
          convertTools rest (<[js_to_string name := def]> tools)
      end
  end.

(** [createMCPTools(serverUrl)], given the outcome of its [tools/list]
    request; returns [tools] and [toolCount]. The third member,
    [toolNames: mcpTools.map(t => t.name)], is not kept: on an array whose
    loop succeeded it cannot throw, and on a string it throws. *)
Definition createMCPTools (out : FetchOutcome)
    : exn + (gmap string ToolDef * nat) :=
  match jsonRpcRequest out with
  | inl e => inl e
  | inr r =>
      (* const { tools: mcpTools } = ... ; console.log(mcpTools.length) *)
      match getp r "tools" with
      | inl e => inl e
      | inr mcpTools =>
          match getp mcpTools "length" with
          | inl e => inl e
          | inr _ =>
              match mcpTools with
              | JArray l =>
                  match convertTools l ∅ with
                  | inl e => inl e
                  | inr ts => inr (ts, length l)
                  end
              | JString s =>
                  (* a string iterates over its characters; the returned
                     [toolNames: mcpTools.map(t => t.name)] then throws *)
                  let cs := map (fun c => JString (String c EmptyString))
                                (String.list_ascii_of_string s) in
                  match convertTools cs ∅ with
                  | inl e => inl e
                  | inr _ => inl (TypeError "mcpTools.map is not a function")
                  end
              | _ => inl (TypeError "mcpTools is not iterable")
              end
          end
      end
  end.

(** What [POST] returns: the agent's streamed UI response (built from the
    loaded tools, with [stopWhen: stepCountIs(10)]), or the JSON error
    response of the [catch] block. *)
Inductive Response : Type :=
  | AgentStream (tools : gmap string ToolDef) (toolCount : nat) (maxSteps : nat)
  | JsonResponse (status : Z) (body : jsval).

Definition errorBody (e : exn) : jsval :=
  JObject [("error", JString "Failed to process chat request");
           ("details", JString (exn_message e))].

(** [POST(request)], given the outcome of the [tools/list] request made
    through [createMCPTools(MCP_SERVER_URL)]. The messages are passed
    through [toUIMessages] to the agent stream unchanged in substance. *)
Definition POST (out : FetchOutcome) : Response :=
  match createMCPTools out with
  | inl e => JsonResponse 500 (errorBody e)
  | inr (tools, toolCount) => AgentStream tools toolCount 10
  end.

End Bridge.

(* ------------------------------------------------------------------ *)
(** ** A tool's [execute] and the earlier plain-JSON client *)

(** ['\n'] *)
Definition newline : string := String "010"%char EmptyString.

(** [items.join(sep)]: [null] and [undefined] elements print as the empty
    string. *)
Fixpoint js_join (sep : string) (vs : list jsval) : string :=
  match vs with
  | [] => ""
  | [w] => match w with JUndefined | JNull => "" | _ => js_to_string w end
  | w :: vs' =>
      match w with JUndefined | JNull => "" | _ => js_to_string w end
      ++ sep ++ js_join sep vs'
  end.

(** [v === s] for a string literal [s]. *)
Definition is_literal (s : string) (v : jsval) : bool :=
  match v with
  | JString s' => String.eqb s' s
  | _ => false
  end.

(** [items.filter(c => c.type === 'text')]: reading [c.type] throws on a
    [null] or [undefined] item. *)
Fixpoint filterText (items : list jsval) : exn + list jsval :=
  match items with
  | [] => inr []
  | c :: rest =>
      match getp c "type" with
      | inl e => inl e
      | inr ty =>
          match filterText rest with
          | inl e => inl e
          | inr kept => inr (if is_literal "text" ty then c :: kept else kept)
          end
      end
  end.

Section Bridge2.

Variable JSON_parse : string -> string + jsval.
Variable JSON_stringify : jsval -> string.

(** [JSON.stringify(v)]: [undefined] for [undefined], a string otherwise. *)
Definition stringifyValue (v : jsval) : jsval :=
  match v with
  | JUndefined => JUndefined
  | _ => JString (JSON_stringify v)
  end.

(** The [execute] function each converted tool gets, given the outcome of
    its [tools/call] request: the text items joined by newlines, or an
    object carrying the first image item's data, or the serialised
    content; an exception of [jsonRpcRequest] is logged and re-thrown. *)
Definition executeTool (out : FetchOutcome) : exn + jsval :=
  match jsonRpcRequest JSON_parse JSON_stringify out with
  | inl e => inl e
  | inr result =>
      match getp result "content" with
      | inl e => inl e
      | inr content =>
          match content with
          | JUndefined | JNull => inr (stringifyValue content)
          | JArray items =>
              match filterText items with
              | inl e => inl e
              | inr texts =>
                  let textContent := js_join newline (map (fun c => get c "text") texts) in
                  let fallback :=
                    if String.eqb textContent "" then stringifyValue content
                    else JString textContent in
                  match List.find (fun c => is_literal "image" (get c "type")) items with
                  | Some img =>
                      if truthy (get img "data") then
                        inr (JObject
                          [("text", JString (if String.eqb textContent ""
                                             then "Image captured" else textContent));
                           ("image", get img "data");
                           ("mimeType", let m := get img "mimeType" in
                                        if truthy m then m else JString "image/png")])
                      else inr fallback
                  | None => inr fallback
                  end
              end
          | _ => inl (TypeError "result.content?.filter is not a function")
          end
      end
  end.

(** [jsonRpcRequest] of the earlier client ([src/unnamed/part_010]): the
    body is read with [response.json()], with no event-frame unwrapping. *)
Definition jsonRpcRequest_plain (out : FetchOutcome) : exn + jsval :=
  match out with
  | FetchRejected e => inl e
  | FetchResponse false status statusText _ =>
      inl (Error ("MCP request failed: " ++ pretty status ++ " " ++ statusText))
  | FetchResponse true _ _ text =>
      match JSON_parse text with
      | inl msg => inl (SyntaxError msg)
      | inr result => checkEnvelope JSON_stringify result
      end
  end.

End Bridge2.

(** The key [tools[mcpTool.name]] and the tool [createMCPTools] stores for
    one catalog entry. *)
Definition toolKey (mcpTool : jsval) : string := js_to_string (get mcpTool "name").

Definition toolDefOf (mcpTool : jsval) : ToolDef :=
  let d := get mcpTool "description" in
  {| description := if truthy d then d
                    else JString ("MCP tool: " ++ js_to_string (get mcpTool "name"));
     inputSchema := ensureObjectSchema (get mcpTool "inputSchema") |}.

(** One iteration of the [for (const mcpTool of mcpTools)] loop on an
    entry that is neither [null] nor [undefined]. *)
Definition insertTool (acc : gmap string ToolDef) (t : jsval) : gmap string ToolDef :=
  <[toolKey t := toolDefOf t]> acc.

(** [null] or [undefined]. *)
Definition nullish (v : jsval) : bool :=
  match v with JUndefined | JNull => true | _ => false end.

(* ------------------------------------------------------------------ *)
(** ** [toUIMessages] *)

(** [{ role: string; content: string; id?: string }] *)
Record RawMessage := mkRawMessage
  { role : string; content : string; msgId : option string }.

(** [{ type: 'text', text }] *)
Record TextPart := mkTextPart { part_type : string; text : string }.

(** [{ id, role, parts }] *)
Record UIMessage := mkUIMessage
  { ui_id : string; ui_role : string; parts : list TextPart }.

(** [messages.map((msg, index) => ...)]; [now index] is the value
    [Date.now()] returns while the [index]-th message is converted (it is
    read only when the message has no id). *)
Definition toUIMessages (now : nat -> Z) (messages : list RawMessage)
    : list UIMessage :=
  imap (fun index msg =>
          let generated := "msg-" ++ pretty index ++ "-" ++ pretty (now index) in
          {| ui_id := match msgId msg with
                      | Some s => if String.eqb s "" then generated else s
                      | None => generated
                      end;
             ui_role := role msg;
             parts := [mkTextPart "text" (content msg)] |})
       messages.

(* ------------------------------------------------------------------ *)
(** ** Concrete histories and catalogs *)

(** A step whose tool calls have the given names. *)
Definition calls (names : list string) : Step :=
  mkStep (Some (map mkToolCall names)).

(** A catalog offering every tool of the gated categories. *)
Definition gated_catalog : gmap string unit :=
  list_to_map (map (fun n => (n, tt))
    (TOOL_CATEGORIES.safe ++ TOOL_CATEGORIES.navigation ++
     TOOL_CATEGORIES.interaction ++ TOOL_CATEGORIES.destructive)%list).

(** The number of [take_screenshot] calls in a history (several calls
    of one step counted separately). *)
Definition screenshotCalls (previousSteps : list Step) : nat :=
  length (filter (fun n => n = "take_screenshot")
                 (flat_map stepToolNames previousSteps)).

(** Every tool listed in some category. *)
Definition categorised : list string :=
  (TOOL_CATEGORIES.safe ++ TOOL_CATEGORIES.navigation ++
   TOOL_CATEGORIES.interaction ++ TOOL_CATEGORIES.terminal ++
   TOOL_CATEGORIES.database_write ++ TOOL_CATEGORIES.destructive ++
   TOOL_CATEGORIES.memory ++ TOOL_CATEGORIES.voice ++
   TOOL_CATEGORIES.agent_draft)%list.

(** Five steps, each calling [take_screenshot] once. *)
Definition five_screenshot_steps : list Step :=
  repeat (calls ["take_screenshot"]) 5.

(** A text item of a [tools/call] reply: [{ type: 'text', text: s }]. *)
Definition textItem (s : string) : jsval :=
  JObject [("type", JString "text"); ("text", JString s)].

(** A host [JSON.parse] that reads every body as the given value, and a
    host [JSON.stringify] with a fixed output. *)
Definition parse_as (v : jsval) : string -> string + jsval := fun _ => inr v.

Definition const_stringify : jsval -> string := fun _ => "{}".

(** A JSON-RPC reply [{ result: r }]. *)
Definition rpc_result (r : jsval) : jsval := JObject [("result", r)].

(** A successful response whose body is one [data: {}] line. *)
Definition sample_response : FetchOutcome := FetchResponse true 200 "OK" "data: {}".

(** [{ content }], [{ error: { message: 'boom' } }], an image item and a
    catalog entry with only a [name]. *)
Definition call_result (content : jsval) : jsval := JObject [("content", content)].

Definition rpc_error : jsval := JObject [("error", JObject [("message", JString "boom")])].

Definition image_item : jsval :=
  JObject [("type", JString "image"); ("data", JString "iVBOR")].

Definition tool_entry (name : string) : jsval := JObject [("name", JString name)].

(* ------------------------------------------------------------------ *)
(** ** Membership in the enabled-name set *)

Section GateFacts.

Lemma elem_of_add_all (x : string) (l : list string) (s : gset string) :
  x ∈ add_all l s ↔ x ∈ l ∨ x ∈ s.
Proof.
  revert s. induction l as [|t l IH]; intros s; simpl.
  - rewrite elem_of_nil. tauto.
  - rewrite IH, elem_of_cons, elem_of_union, elem_of_singleton. tauto.
Qed.

Lemma take_screenshot_not_safe : "take_screenshot" ∉ TOOL_CATEGORIES.safe.
Proof. apply (bool_decide_eq_false _). reflexivity. Qed.

Lemma take_screenshot_not_navigation :
  "take_screenshot" ∉ TOOL_CATEGORIES.navigation.
Proof. apply (bool_decide_eq_false _). reflexivity. Qed.

Lemma hasNavigated_spec (h : list Step) :
  hasNavigated h = true ↔
  "navigate_browser" ∈ usedTools h ∨ "create_tab" ∈ usedTools h.
Proof.
  unfold hasNavigated. rewrite orb_true_iff, !bool_decide_eq_true. tauto.
Qed.

Lemma elem_of_enabledToolNames (h : list Step) (x : string) :
  x ∈ enabledToolNames h ↔
    x ∈ TOOL_CATEGORIES.safe ∨ x ∈ TOOL_CATEGORIES.navigation ∨
    (hasNavigated h = true ∧ x ∈ TOOL_CATEGORIES.interaction ∧
       ¬ (x = "take_screenshot" ∧ (5 ≤ screenshotCount h)%nat)) ∨
    x ∈ TOOL_CATEGORIES.terminal ∨ x ∈ TOOL_CATEGORIES.database_write ∨
    ((hasNavigated h = true ∨ "list_tabs" ∈ usedTools h) ∧
       x ∈ TOOL_CATEGORIES.destructive) ∨
    x ∈ TOOL_CATEGORIES.memory ∨ x ∈ TOOL_CATEGORIES.voice ∨
    x ∈ TOOL_CATEGORIES.agent_draft.
Proof.
  pose proof take_screenshot_not_safe as Hs.
  pose proof take_screenshot_not_navigation as Hv.
  unfold enabledToolNames.
  destruct (hasNavigated h) eqn:Hn;
    destruct (bool_decide ("list_tabs" ∈ usedTools h)) eqn:Hl;
    rewrite ?bool_decide_eq_true in Hl; rewrite ?bool_decide_eq_false in Hl;
    cbn [orb].
  1,2: destruct (Nat.leb_spec 5 (screenshotCount h)) as [Hc|Hc].
  all: rewrite ?elem_of_add_all, ?elem_of_difference, ?elem_of_singleton,
         ?elem_of_add_all, ?elem_of_empty.
  all: destruct (decide (x = "take_screenshot")) as [->|Hne].
  all: try (intuition (try congruence; try lia); fail).
Qed.

Lemma getEnabledTools_lookup {A : Type} (allTools : gmap string A)
    (h : list Step) (x : string) :
  getEnabledTools allTools h !! x =
    if decide (x ∈ enabledToolNames h) then allTools !! x else None.
Proof.
  unfold getEnabledTools.
  destruct (allTools !! x) as [d|] eqn:E; case_decide.
  - apply map_lookup_filter_Some. simpl. auto.
  - apply map_lookup_filter_None. right. intros d' Hd'. simpl. done.
  - apply map_lookup_filter_None. by left.
  - apply map_lookup_filter_None. by left.
Qed.

Lemma usedTools_app (h e : list Step) :
  usedTools (h ++ e) = usedTools h ∪ usedTools e.
Proof. unfold usedTools. by rewrite flat_map_app, list_to_set_app_L. Qed.

Lemma screenshotCount_app (h e : list Step) :
  screenshotCount (h ++ e) = screenshotCount h + screenshotCount e.
Proof. unfold screenshotCount. by rewrite filter_app, length_app. Qed.

End GateFacts.

(* ------------------------------------------------------------------ *)
(** ** Category tables *)

Section Categories.

(** A name is listed in exactly the categories shown: interaction tools
    belong to no other category. *)
Lemma interaction_only :
  Forall (fun t =>
    (t ∉ TOOL_CATEGORIES.safe) ∧ (t ∉ TOOL_CATEGORIES.navigation) ∧
    (t ∉ TOOL_CATEGORIES.terminal) ∧ (t ∉ TOOL_CATEGORIES.database_write) ∧
    (t ∉ TOOL_CATEGORIES.destructive) ∧ (t ∉ TOOL_CATEGORIES.memory) ∧
    (t ∉ TOOL_CATEGORIES.voice) ∧ (t ∉ TOOL_CATEGORIES.agent_draft))
    TOOL_CATEGORIES.interaction.
Proof. apply (bool_decide_unpack _). by vm_compute. Qed.

Lemma close_tab_only :
  ("close_tab" ∉ TOOL_CATEGORIES.safe) ∧ ("close_tab" ∉ TOOL_CATEGORIES.navigation) ∧
  ("close_tab" ∉ TOOL_CATEGORIES.interaction) ∧
  ("close_tab" ∉ TOOL_CATEGORIES.terminal) ∧
  ("close_tab" ∉ TOOL_CATEGORIES.database_write) ∧
  ("close_tab" ∉ TOOL_CATEGORIES.memory) ∧ ("close_tab" ∉ TOOL_CATEGORIES.voice) ∧
  ("close_tab" ∉ TOOL_CATEGORIES.agent_draft).
Proof. apply (bool_decide_unpack _). by vm_compute. Qed.

Lemma interaction_lookup {A : Type} (cat : gmap string A) (h : list Step)
    (t : string) :
  t ∈ TOOL_CATEGORIES.interaction →
  getEnabledTools cat h !! t =
    if decide (hasNavigated h = true ∧
               ¬ (t = "take_screenshot" ∧ (5 ≤ screenshotCount h)%nat))
    then cat !! t else None.
Proof.
  intros Ht.
  pose proof (proj1 (Forall_forall _ _) interaction_only t Ht) as Hd; cbn beta in Hd.
  assert (Hiff : t ∈ enabledToolNames h ↔
          hasNavigated h = true ∧
          ¬ (t = "take_screenshot" ∧ (5 ≤ screenshotCount h)%nat)).
  { rewrite elem_of_enabledToolNames. intuition. }
  rewrite getEnabledTools_lookup.
  do 2 case_decide; first [reflexivity | tauto].
Qed.

End Categories.

Lemma close_tab_lookup {A : Type} (cat : gmap string A) (h : list Step) :
  getEnabledTools cat h !! "close_tab" =
    if decide ("navigate_browser" ∈ usedTools h ∨ "create_tab" ∈ usedTools h ∨
               "list_tabs" ∈ usedTools h)
    then cat !! "close_tab" else None.
Proof.
  pose proof close_tab_only as Hd.
  assert (Hiff : "close_tab" ∈ enabledToolNames h ↔
          "navigate_browser" ∈ usedTools h ∨ "create_tab" ∈ usedTools h ∨
          "list_tabs" ∈ usedTools h).
  { rewrite elem_of_enabledToolNames, hasNavigated_spec.
    assert ("close_tab" ∈ TOOL_CATEGORIES.destructive) by (left; done).
    intuition. }
  rewrite getEnabledTools_lookup.
  do 2 case_decide; first [reflexivity | tauto].
Qed.

Lemma hasNavigated_app (h e : list Step) :
  hasNavigated h = true → hasNavigated (h ++ e) = true.
Proof. rewrite !hasNavigated_spec, usedTools_app. set_solver. Qed.

(* ------------------------------------------------------------------ *)
(** ** The tool gate *)

Section GateClaims.

(** C2 (code bug): [switch_tab] is a navigation-category tool, listed
    under the comment "Navigation tools - unlock interaction", yet after a
    history whose only call is [switch_tab] the gate does not expose
    [click_element], an interaction tool present in the catalog:
    [hasNavigated] tests only [navigate_browser] and [create_tab]. *)
Lemma gate_switch_tab_keeps_interaction_locked :
  "switch_tab" ∈ TOOL_CATEGORIES.navigation ∧
  "switch_tab" ∈ usedTools [calls ["switch_tab"]] ∧
  "click_element" ∈ TOOL_CATEGORIES.interaction ∧
  gated_catalog !! "click_element" = Some tt ∧
  getEnabledTools gated_catalog [calls ["switch_tab"]] !! "click_element" = None.
Proof. apply (bool_decide_unpack _). by vm_compute. Qed.

End GateClaims.

Section GateFacts2.

Lemma stepHasScreenshot_calls (s : Step) :
  stepHasScreenshot s = true →
  (1 ≤ length (filter (fun n => n = "take_screenshot") (stepToolNames s)))%nat.
Proof.
  unfold stepHasScreenshot, stepToolNames.
  destruct (toolCalls s) as [cs|]; [|discriminate].
  intros E. apply existsb_exists in E as [c [Hc Hn]].
  apply String.eqb_eq in Hn.
  destruct (filter (fun n => n = "take_screenshot") (map toolName cs))
    eqn:F; simpl; [|lia].
  assert (toolName c ∈ filter (fun n => n = "take_screenshot")
                              (map toolName cs)) as Hin.
  { apply list_elem_of_filter. split; [done|].
    apply list_elem_of_In. by apply in_map. }
  rewrite F in Hin. set_solver.
Qed.

Lemma screenshotCount_le_calls (h : list Step) :
  (screenshotCount h ≤ screenshotCalls h)%nat.
Proof.
  unfold screenshotCount, screenshotCalls.
  induction h as [|s h IH]; [simpl; lia|].
  cbn [flat_map]. rewrite filter_app, length_app.
  destruct (decide (stepHasScreenshot s = true)) as [Hs|Hs].
  - rewrite filter_cons_True by done. simpl.
    pose proof (stepHasScreenshot_calls s Hs). lia.
  - rewrite filter_cons_False by done. lia.
Qed.

End GateFacts2.

Section GateClaims2.

(** C3 (counterexample): five steps each calling [take_screenshot] (five
    screenshot calls), with no navigation: [click_element], an interaction
    tool other than the screenshot tool and present in the catalog, is
    not exposed. And after [navigate_browser], five [take_screenshot]
    calls made in one step leave [take_screenshot] exposed: the limit
    counts steps with a screenshot call, not calls. *)
Lemma gate_five_screenshots_without_navigation :
  (screenshotCalls five_screenshot_steps = 5%nat ∧
   gated_catalog !! "click_element" = Some tt ∧
   getEnabledTools gated_catalog five_screenshot_steps !! "click_element" = None) ∧
  (screenshotCalls [calls ["navigate_browser"]; calls (repeat "take_screenshot" 5)] = 5%nat ∧
   getEnabledTools gated_catalog
     [calls ["navigate_browser"]; calls (repeat "take_screenshot" 5)] !! "take_screenshot" =
     Some tt).
Proof. apply (bool_decide_unpack _). by vm_compute. Qed.

(** C3 (amended): once [navigate_browser] or [create_tab] has been called,
    if at least 5 steps each contained a [take_screenshot] call then
    [take_screenshot] is not exposed while every other interaction tool of
    the catalog is, and with fewer than 5 [take_screenshot] calls in total
    it is exposed whenever the catalog has it; in a history with no call
    of a navigation-category tool ([navigate_browser], [create_tab] or
    [switch_tab]) no interaction tool is exposed. *)
Theorem gate_screenshot_rate_limit {A : Type} (cat : gmap string A)
    (h : list Step) :
  (("navigate_browser" ∈ usedTools h ∨ "create_tab" ∈ usedTools h) →
   ((5 ≤ screenshotCount h)%nat →
      getEnabledTools cat h !! "take_screenshot" = None ∧
      ∀ t, t ∈ TOOL_CATEGORIES.interaction → t ≠ "take_screenshot" →
        getEnabledTools cat h !! t = cat !! t) ∧
   ((screenshotCalls h < 5)%nat →
      getEnabledTools cat h !! "take_screenshot" = cat !! "take_screenshot")) ∧
  ((("navigate_browser" ∉ usedTools h) ∧ ("create_tab" ∉ usedTools h) ∧
    ("switch_tab" ∉ usedTools h)) →
   ∀ t, t ∈ TOOL_CATEGORIES.interaction → getEnabledTools cat h !! t = None).
Proof.
  assert (Hts : "take_screenshot" ∈ TOOL_CATEGORIES.interaction)
    by (apply (bool_decide_unpack _); by vm_compute).
  pose proof (screenshotCount_le_calls h) as Hle.
  pose proof (hasNavigated_spec h) as Hnav.
  split.
  - intros Hn. split.
    + intros Hc. split.
      * rewrite (interaction_lookup cat h _ Hts).
        case_decide as Hd; [|done]. exfalso. destruct Hd as [_ Hd]. by apply Hd.
      * intros t Ht Hne. rewrite (interaction_lookup cat h t Ht).
        case_decide as Hd; [done|]. exfalso. apply Hd. split; [tauto|]. tauto.
    + intros Hc. rewrite (interaction_lookup cat h _ Hts).
      case_decide as Hd; [done|]. exfalso. apply Hd. split; [tauto|]. lia.
  - intros [Hn1 [Hn2 _]] t Ht. rewrite (interaction_lookup cat h t Ht).
    case_decide as Hd; [|done]. exfalso. destruct Hd as [Hd _]. tauto.
Qed.

Lemma gate_screenshot_rate_limit_witness :
  ("navigate_browser" ∈ usedTools (calls ["navigate_browser"] :: five_screenshot_steps) ∨
   "create_tab" ∈ usedTools (calls ["navigate_browser"] :: five_screenshot_steps)) ∧
  ((5 ≤ screenshotCount (calls ["navigate_browser"] :: five_screenshot_steps))%nat ∧
   getEnabledTools gated_catalog (calls ["navigate_browser"] :: five_screenshot_steps)
     !! "take_screenshot" = None) ∧
  ((("navigate_browser" ∉ usedTools five_screenshot_steps) ∧
    ("create_tab" ∉ usedTools five_screenshot_steps) ∧
    ("switch_tab" ∉ usedTools five_screenshot_steps)) ∧
   getEnabledTools gated_catalog five_screenshot_steps !! "click_element" = None).
Proof.
  assert (Hn : "navigate_browser" ∈ usedTools (calls ["navigate_browser"] :: five_screenshot_steps) ∨
               "create_tab" ∈ usedTools (calls ["navigate_browser"] :: five_screenshot_steps))
    by (left; apply (bool_decide_unpack _); by vm_compute).
  assert (Hc : (5 ≤ screenshotCount (calls ["navigate_browser"] :: five_screenshot_steps))%nat)
    by (vm_compute; lia).
  assert (Hz : ("navigate_browser" ∉ usedTools five_screenshot_steps) ∧
               ("create_tab" ∉ usedTools five_screenshot_steps) ∧
               ("switch_tab" ∉ usedTools five_screenshot_steps))
    by (apply (bool_decide_unpack _); by vm_compute).
  assert (Hi : "click_element" ∈ TOOL_CATEGORIES.interaction)
    by (apply (bool_decide_unpack _); by vm_compute).
  split; [exact Hn|]. split.
  - split; [exact Hc|].
    exact (proj1 (proj1 (proj1 (gate_screenshot_rate_limit gated_catalog _) Hn) Hc)).
  - split; [exact Hz|].
    exact (proj2 (gate_screenshot_rate_limit gated_catalog five_screenshot_steps) Hz _ Hi).
Defined.

(** C5: the exposed tools are a sub-map of the catalog, and every catalog
    tool of the "safe" and "navigation" categories is exposed. *)
Theorem gate_subset_and_keeps_safe_navigation {A : Type}
    (cat : gmap string A) (h : list Step) :
  getEnabledTools cat h ⊆ cat ∧
  Forall (fun t => getEnabledTools cat h !! t = cat !! t)
    (TOOL_CATEGORIES.safe ++ TOOL_CATEGORIES.navigation)%list.
Proof.
  split.
  - unfold getEnabledTools. apply map_filter_subseteq.
  - apply Forall_forall. intros t Ht.
    rewrite getEnabledTools_lookup. case_decide as Hd; [done|].
    exfalso. apply Hd. apply elem_of_enabledToolNames.
    apply elem_of_app in Ht. tauto.
Qed.

(** C6: appending steps to a history never withdraws an exposed tool
    other than [take_screenshot]. *)
Theorem gate_monotone_except_screenshot {A : Type} (cat : gmap string A)
    (h e : list Step) (t : string) :
  t ≠ "take_screenshot" →
  is_Some (getEnabledTools cat h !! t) →
  getEnabledTools cat (h ++ e) !! t = getEnabledTools cat h !! t.
Proof.
  intros Hne Hsome.
  rewrite !getEnabledTools_lookup in *.
  case_decide as Hh; [|by destruct Hsome].
  case_decide as Hhe; [done|]. exfalso. apply Hhe.
  apply elem_of_enabledToolNames in Hh. apply elem_of_enabledToolNames.
  pose proof (hasNavigated_app h e) as Happ.
  rewrite usedTools_app.
  destruct Hh as [H|[H|[[Hn [Hi _]]|[H|[H|[[[Hn|Hl] Hd]|H]]]]]].
  - tauto.
  - tauto.
  - do 2 right; left. split; [auto|]. split; [done|]. intros [? _]. done.
  - tauto.
  - tauto.
  - do 5 right; left. split; [left; auto|done].
  - do 5 right; left. split; [right; set_solver|done].
  - tauto.
Qed.

Lemma gate_monotone_except_screenshot_witness :
  ("click_element" ≠ "take_screenshot" ∧
   is_Some (getEnabledTools gated_catalog [calls ["create_tab"]] !! "click_element")) ∧
  getEnabledTools gated_catalog ([calls ["create_tab"]] ++ [calls ["close_tab"]])
    !! "click_element" =
  getEnabledTools gated_catalog [calls ["create_tab"]] !! "click_element".
Proof.
  assert (H1 : "click_element" ≠ "take_screenshot") by discriminate.
  assert (H2 : is_Some (getEnabledTools gated_catalog [calls ["create_tab"]]
                          !! "click_element")) by (vm_compute; eauto).
  split; [split; assumption|].
  exact (gate_monotone_except_screenshot gated_catalog _ _ _ H1 H2).
Defined.

End GateClaims2.

Section GateClaims3.

(** C7 (code bug): after a history whose only call is [switch_tab] (a
    navigation-category tool), [close_tab] is present in the catalog but
    not exposed: the destructive condition reuses [hasNavigated], which
    tests only [navigate_browser] and [create_tab]. *)
Lemma gate_switch_tab_keeps_close_tab_locked :
  "switch_tab" ∈ TOOL_CATEGORIES.navigation ∧
  "close_tab" ∈ TOOL_CATEGORIES.destructive ∧
  gated_catalog !! "close_tab" = Some tt ∧
  getEnabledTools gated_catalog [calls ["switch_tab"]] !! "close_tab" = None.
Proof. apply (bool_decide_unpack _). by vm_compute. Qed.

(** C8: the gate is a function of the catalog and of the history only,
    and of the history only through the set of tool names called and the
    number of steps with a screenshot call: histories agreeing on these
    (for instance the same steps in another order) yield the same exposed
    tools. *)
Theorem gate_deterministic {A : Type} (cat1 cat2 : gmap string A)
    (h1 h2 : list Step) :
  cat1 = cat2 →
  usedTools h1 = usedTools h2 →
  screenshotCount h1 = screenshotCount h2 →
  getEnabledTools cat1 h1 = getEnabledTools cat2 h2.
Proof.
  intros -> Hu Hc.
  unfold getEnabledTools, enabledToolNames, hasNavigated.
  rewrite Hu, Hc. reflexivity.
Qed.

Lemma gate_deterministic_witness :
  getEnabledTools gated_catalog
    [calls ["create_tab"]; calls ["take_screenshot"]; calls ["list_tabs"]] =
  getEnabledTools gated_catalog
    [calls ["list_tabs"]; calls ["take_screenshot"]; calls ["create_tab"]].
Proof.
  apply (gate_deterministic gated_catalog gated_catalog); [reflexivity| |].
  - unfold usedTools. simpl. set_solver.
  - reflexivity.
Defined.

End GateClaims3.

(* ------------------------------------------------------------------ *)
(** ** Schema normalisation *)

Section SchemaFacts.

(** The two shapes [ensureObjectSchema] returns. *)
Lemma ensureObjectSchema_cases (schema : jsval) :
  ensureObjectSchema schema = defaultSchema ∨
  ∃ p r, truthy p = true ∧
    ensureObjectSchema schema =
      JObject [("type", JString "object"); ("properties", p); ("required", r)] ∧
    (get schema "properties" = JUndefined → p = JObject []).
Proof.
  unfold ensureObjectSchema.
  destruct (truthy schema); simpl; [|by left].
  destruct (is_object_literal (get schema "type")); [|by left].
  right. eexists _, _. split; [|split; [reflexivity|]].
  - destruct (truthy (get schema "properties")) eqn:E; [exact E|reflexivity].
  - intros ->. reflexivity.
Qed.

End SchemaFacts.

Section SchemaClaims.

(** C9: a missing (falsy) schema, or one whose [type] is not ['object'],
    becomes exactly [{type: 'object', properties: {}}], against which an
    empty argument object passes the root-level checks. *)
Theorem ensureObjectSchema_non_object (schema : jsval) :
  truthy schema = false ∨ is_object_literal (get schema "type") = false →
  ensureObjectSchema schema =
    JObject [("type", JString "object"); ("properties", JObject [])] ∧
  conforms_root (ensureObjectSchema schema) (JObject []) = true.
Proof.
  intros Hs.
  assert (Hd : ensureObjectSchema schema = defaultSchema).
  { unfold ensureObjectSchema.
    destruct Hs as [-> | Ht]; [reflexivity|].
    rewrite Ht. by destruct (truthy schema). }
  rewrite Hd. split; reflexivity.
Qed.

Lemma ensureObjectSchema_non_object_witness :
  (truthy (JObject [("type", JString "string")]) = false ∨
   is_object_literal (get (JObject [("type", JString "string")]) "type") = false) ∧
  ensureObjectSchema (JObject [("type", JString "string")]) =
    JObject [("type", JString "object"); ("properties", JObject [])].
Proof.
  assert (H : truthy (JObject [("type", JString "string")]) = false ∨
              is_object_literal (get (JObject [("type", JString "string")]) "type") = false)
    by (right; reflexivity).
  split; [exact H|].
  exact (proj1 (ensureObjectSchema_non_object _ H)).
Defined.

(** C10 (counterexample): normalising the normalised form of a missing
    schema adds a [required] key holding [undefined], so the result is not
    the schema it was given. *)
Lemma ensureObjectSchema_twice_adds_required :
  ensureObjectSchema JUndefined = defaultSchema ∧
  ensureObjectSchema (ensureObjectSchema JUndefined) =
    JObject [("type", JString "object"); ("properties", JObject []);
             ("required", JUndefined)] ∧
  ensureObjectSchema (ensureObjectSchema JUndefined) ≠ ensureObjectSchema JUndefined.
Proof. split; [reflexivity|]. split; [reflexivity|]. discriminate. Qed.

(** C10 (amended): the normalised schema has type ['object'] and only the
    keys [type], [properties] and [required]; an absent [properties]
    becomes [{}]; normalising it again keeps its type, properties and
    required values and at most makes the [required] key explicit (with
    value [undefined]), so both serialise to the same JSON. *)
Theorem ensureObjectSchema_shape_and_renormalise (schema : jsval) :
  let n := ensureObjectSchema schema in
  is_object_literal (get n "type") = true ∧
  keys n ⊆ ["type"; "properties"; "required"] ∧
  (get schema "properties" = JUndefined → get n "properties" = JObject []) ∧
  ensureObjectSchema n =
    JObject [("type", JString "object"); ("properties", get n "properties");
             ("required", get n "required")] ∧
  to_json (ensureObjectSchema n) = to_json n.
Proof.
  cbv zeta.
  destruct (ensureObjectSchema_cases schema) as [Hd | (p & r & Hp & He & Habs)].
  - rewrite Hd. split; [reflexivity|]. split; [set_solver|].
    split; [reflexivity|]. split; reflexivity.
  - rewrite He.
    assert (Hn : ensureObjectSchema
                   (JObject [("type", JString "object"); ("properties", p);
                             ("required", r)]) =
                 JObject [("type", JString "object"); ("properties", p);
                          ("required", r)]).
    { unfold ensureObjectSchema. simpl. rewrite Hp. reflexivity. }
    rewrite Hn. simpl get.
    split; [reflexivity|]. split; [set_solver|].
    split; [exact Habs|]. split; reflexivity.
Qed.

End SchemaClaims.


(* ------------------------------------------------------------------ *)
(** ** Further properties of the tool gate *)

Section GateExtras.

Lemma enabledToolNames_ext (h1 h2 : list Step) :
  usedTools h1 = usedTools h2 → screenshotCount h1 = screenshotCount h2 →
  enabledToolNames h1 = enabledToolNames h2.
Proof.
  intros Hu Hc. unfold enabledToolNames, hasNavigated. by rewrite Hu, Hc.
Qed.

Lemma usedTools_perm (h1 h2 : list Step) :
  h1 ≡ₚ h2 → usedTools h1 = usedTools h2.
Proof.
  unfold usedTools. induction 1 as [|s h1 h2 _ IH|s t h|h1 h2 h3 _ IH1 _ IH2];
    cbn [flat_map]; rewrite ?list_to_set_app_L.
  - done.
  - by rewrite IH.
  - set_solver.
  - by rewrite IH1.
Qed.

Lemma screenshotCount_perm (h1 h2 : list Step) :
  h1 ≡ₚ h2 → screenshotCount h1 = screenshotCount h2.
Proof. intros Hp. unfold screenshotCount. by rewrite Hp. Qed.

Lemma stepToolNames_nil (s : Step) :
  stepToolNames s = [] → stepHasScreenshot s = false.
Proof.
  unfold stepToolNames, stepHasScreenshot.
  destruct (toolCalls s) as [[|c cs]|]; simpl; done.
Qed.

(** X1: before any step, the gate exposes exactly the catalog's tools
    of the categories [safe], [navigation], [terminal],
    [database_write], [memory], [voice] and [agent_draft]. *)
Theorem gate_empty_history {A : Type} (cat : gmap string A) (x : string) :
  getEnabledTools cat [] !! x =
    if decide (x ∈ TOOL_CATEGORIES.safe ∨ x ∈ TOOL_CATEGORIES.navigation ∨
               x ∈ TOOL_CATEGORIES.terminal ∨ x ∈ TOOL_CATEGORIES.database_write ∨
               x ∈ TOOL_CATEGORIES.memory ∨ x ∈ TOOL_CATEGORIES.voice ∨
               x ∈ TOOL_CATEGORIES.agent_draft)
    then cat !! x else None.
Proof.
  assert (En : hasNavigated [] = false) by reflexivity.
  assert (El : "list_tabs" ∉ usedTools []) by (unfold usedTools; set_solver).
  assert (Hiff : x ∈ enabledToolNames [] ↔
            x ∈ TOOL_CATEGORIES.safe ∨ x ∈ TOOL_CATEGORIES.navigation ∨
            x ∈ TOOL_CATEGORIES.terminal ∨ x ∈ TOOL_CATEGORIES.database_write ∨
            x ∈ TOOL_CATEGORIES.memory ∨ x ∈ TOOL_CATEGORIES.voice ∨
            x ∈ TOOL_CATEGORIES.agent_draft).
  { rewrite elem_of_enabledToolNames, En. split.
    - intros [?|[?|[[Hn _]|[?|[?|[[[Hn|Hl] _]|[?|[?|?]]]]]]]];
        first [discriminate | contradiction | tauto].
    - intros [?|[?|[?|[?|[?|[?|?]]]]]]; tauto. }
  rewrite getEnabledTools_lookup.
  do 2 case_decide; first [reflexivity | tauto].
Qed.

(** X2: a catalog tool listed in no category is never exposed, whatever
    the history. *)
Theorem gate_uncategorised_never_exposed {A : Type} (cat : gmap string A)
    (x : string) :
  x ∉ categorised → ∀ h, getEnabledTools cat h !! x = None.
Proof.
  intros Hx h. rewrite getEnabledTools_lookup. case_decide as Hin; [|done].
  exfalso. apply Hx. unfold categorised. rewrite !elem_of_app.
  apply elem_of_enabledToolNames in Hin. tauto.
Qed.

Lemma gate_uncategorised_never_exposed_witness :
  ("start_claude_agent" ∉ categorised) ∧
  getEnabledTools (<["start_claude_agent" := tt]> gated_catalog)
    [calls ["navigate_browser"; "list_tabs"]] !! "start_claude_agent" = None.
Proof.
  assert (H : "start_claude_agent" ∉ categorised)
    by (apply (bool_decide_unpack _); by vm_compute).
  split; [exact H|].
  exact (gate_uncategorised_never_exposed _ _ H _).
Defined.



(** X4: the order of the previous steps does not matter. *)
Theorem gate_step_order_irrelevant {A : Type} (cat : gmap string A)
    (h1 h2 : list Step) :
  h1 ≡ₚ h2 → getEnabledTools cat h1 = getEnabledTools cat h2.
Proof.
  intros Hp. unfold getEnabledTools.
  by rewrite (enabledToolNames_ext h1 h2 (usedTools_perm _ _ Hp)
                                   (screenshotCount_perm _ _ Hp)).
Qed.

Lemma gate_step_order_irrelevant_witness :
  [calls ["take_screenshot"]; calls ["create_tab"]] ≡ₚ
    [calls ["create_tab"]; calls ["take_screenshot"]] ∧
  getEnabledTools gated_catalog [calls ["take_screenshot"]; calls ["create_tab"]] =
  getEnabledTools gated_catalog [calls ["create_tab"]; calls ["take_screenshot"]].
Proof.
  assert (Hp : [calls ["take_screenshot"]; calls ["create_tab"]] ≡ₚ
               [calls ["create_tab"]; calls ["take_screenshot"]]) by constructor.
  split; [exact Hp|]. exact (gate_step_order_irrelevant gated_catalog _ _ Hp).
Defined.

(** X5: a step that called no tool ([toolCalls] absent or empty) has no
    effect on the gate. *)
Theorem gate_ignores_steps_without_calls {A : Type} (cat : gmap string A)
    (h1 h2 : list Step) (s : Step) :
  stepToolNames s = [] →
  getEnabledTools cat (h1 ++ s :: h2) = getEnabledTools cat (h1 ++ h2).
Proof.
  intros Hs. unfold getEnabledTools.
  rewrite (enabledToolNames_ext (h1 ++ s :: h2) (h1 ++ h2)); [done| |].
  - rewrite !usedTools_app. unfold usedTools. cbn [flat_map]. rewrite Hs. done.
  - rewrite !screenshotCount_app. unfold screenshotCount.
    rewrite filter_cons_False; [done|]. rewrite stepToolNames_nil by done. done.
Qed.

Lemma gate_ignores_steps_without_calls_witness :
  stepToolNames (mkStep None) = [] ∧
  getEnabledTools gated_catalog ([calls ["create_tab"]] ++ mkStep None :: [])%list =
  getEnabledTools gated_catalog ([calls ["create_tab"]] ++ [])%list.
Proof.
  assert (Hs : stepToolNames (mkStep None) = []) by reflexivity.
  split; [exact Hs|]. exact (gate_ignores_steps_without_calls gated_catalog _ _ _ Hs).
Defined.

End GateExtras.

(* ------------------------------------------------------------------ *)
(** ** Strings, event frames and the MCP client *)

Section StringFacts.

Lemma sapp_nil (b : string) : "" ++ b = b.
Proof. reflexivity. Qed.

Lemma sapp_cons (c : ascii) (a b : string) : String c a ++ b = String c (a ++ b).
Proof. reflexivity. Qed.

Lemma sapp_nil_r (a : string) : a ++ "" = a.
Proof. induction a as [|c a IH]; [done|]. by rewrite sapp_cons, IH. Qed.

Lemma sapp_assoc (a b c : string) : (a ++ b) ++ c = a ++ (b ++ c).
Proof. induction a as [|x a IH]; [done|]. by rewrite !sapp_cons, IH. Qed.

Lemma slength_app (a b : string) :
  String.length (a ++ b) = (String.length a + String.length b)%nat.
Proof. induction a as [|x a IH]; [done|]. rewrite sapp_cons. simpl. by rewrite IH. Qed.

Lemma prefix_app (a b : string) : String.prefix a (a ++ b) = true.
Proof.
  induction a as [|x a IH]; [by destruct b|]. rewrite sapp_cons. simpl.
  destruct (ascii_dec x x); [done|congruence].
Qed.

Lemma substring_app (a b : string) (m : nat) :
  String.substring (String.length a) m (a ++ b) = String.substring 0 m b.
Proof. induction a as [|x a IH]; [done|]. rewrite sapp_cons. simpl. apply IH. Qed.

Lemma substring_all (b : string) : String.substring 0 (String.length b) b = b.
Proof. induction b as [|x b IH]; [done|]. simpl. by rewrite IH. Qed.

Lemma list_ascii_of_string_app (a b : string) :
  String.list_ascii_of_string (a ++ b) =
    (String.list_ascii_of_string a ++ String.list_ascii_of_string b)%list.
Proof. induction a as [|x a IH]; [done|]. rewrite sapp_cons. simpl. by rewrite IH. Qed.

Lemma split_lines_acc_no_break (s cur : string) :
  "010"%char ∉ String.list_ascii_of_string s →
  "013"%char ∉ String.list_ascii_of_string s →
  split_lines_acc s cur = [cur ++ s].
Proof.
  revert cur. induction s as [|c s IH]; intros cur Hn Hr.
  - simpl. by rewrite sapp_nil_r.
  - cbn [String.list_ascii_of_string] in Hn, Hr.
    rewrite elem_of_cons in Hn, Hr. simpl.
    destruct (Ascii.eqb_spec c "010"%char) as [->|]; [exfalso; apply Hn; by left|].
    destruct (Ascii.eqb_spec c "013"%char) as [->|]; [exfalso; apply Hr; by left|].
    simpl.
    rewrite IH by tauto. by rewrite sapp_assoc.
Qed.

Lemma split_lines_acc_line (a rest cur : string) :
  "010"%char ∉ String.list_ascii_of_string a →
  "013"%char ∉ String.list_ascii_of_string a →
  split_lines_acc (a ++ String "010"%char rest) cur =
    (cur ++ a) :: split_lines_acc rest "".
Proof.
  revert cur. induction a as [|c a IH]; intros cur Hn Hr.
  - simpl. by rewrite sapp_nil_r.
  - cbn [String.list_ascii_of_string] in Hn, Hr.
    rewrite elem_of_cons in Hn, Hr. rewrite sapp_cons. simpl.
    destruct (Ascii.eqb_spec c "010"%char) as [->|]; [exfalso; apply Hn; by left|].
    destruct (Ascii.eqb_spec c "013"%char) as [->|]; [exfalso; apply Hr; by left|].
    simpl.
    rewrite IH by tauto. by rewrite sapp_assoc.
Qed.

End StringFacts.

Section FrameFacts.

Lemma dataMatch_event_frame (d : string) :
  d ≠ "" →
  "010"%char ∉ String.list_ascii_of_string d →
  "013"%char ∉ String.list_ascii_of_string d →
  dataMatch ("event: message" ++ newline ++ "data: " ++ d) = Some d.
Proof.
  intros Hd Hn Hr. unfold dataMatch, split_lines, newline.
  rewrite (sapp_cons "010"%char ""), sapp_nil.
  rewrite split_lines_acc_line
    by (apply (bool_decide_unpack _); by vm_compute).
  rewrite split_lines_acc_no_break.
  2,3: rewrite list_ascii_of_string_app, elem_of_app; intros [Hx|Hx];
       [revert Hx; apply (bool_decide_unpack _); by vm_compute | done].
  cbn [List.find]. rewrite !sapp_nil.
  change (String.prefix "data: " "event: message") with false. cbn [andb].
  rewrite prefix_app, slength_app. cbn [andb].
  assert (Hl : String.length d ≠ 0%nat) by (destruct d; [done|discriminate]).
  rewrite (proj2 (Nat.ltb_lt _ _)) by (simpl; lia). cbn beta iota.
  rewrite slength_app.
  replace (String.length "data: " + String.length d - String.length "data: ")%nat
    with (String.length d) by lia.
  by rewrite substring_app, substring_all.
Qed.

End FrameFacts.

Section BridgeExtras.

Context (JSON_parse : string -> string + jsval) (JSON_stringify : jsval -> string).

Lemma getp_defined (v : jsval) (k : string) :
  nullish v = false → getp v k = inr (get v k).
Proof. by destruct v. Qed.

Lemma filterText_ok (items : list jsval) :
  Forall (fun c => nullish c = false) items →
  filterText items = inr (filter (fun c => is_literal "text" (get c "type") = true) items).
Proof.
  induction 1 as [|c items Hc _ IH]; [done|]. cbn [filterText].
  rewrite getp_defined by done. rewrite IH.
  destruct (is_literal "text" (get c "type")) eqn:E.
  - by rewrite filter_cons_True.
  - rewrite filter_cons_False; [done|]. by rewrite E.
Qed.

Lemma filterText_nullish (items : list jsval) :
  Exists (fun c => nullish c = true) items →
  ∃ m, filterText items = inl (TypeError m).
Proof.
  induction 1 as [c items Hc|c items _ [m IH]]; cbn [filterText].
  - destruct c; try discriminate; eexists; reflexivity.
  - destruct (nullish c) eqn:Hc.
    + destruct c; try discriminate; eexists; reflexivity.
    + rewrite getp_defined by done. rewrite IH. by eexists.
Qed.

Lemma text_items_filter_find (items : list jsval) :
  Forall (fun c => is_literal "text" (get c "type") = true) items →
  filter (fun c => is_literal "text" (get c "type") = true) items = items ∧
  List.find (fun c => is_literal "image" (get c "type")) items = None.
Proof.
  induction 1 as [|c items Hc _ [IH1 IH2]]; [done|].
  rewrite filter_cons_True by done. rewrite IH1. split; [done|].
  cbn [List.find]. rewrite IH2.
  destruct (get c "type"); try discriminate. simpl in *.
  apply String.eqb_eq in Hc. by subst.
Qed.

(** X6: a reply framed as a server-sent event, [event: message] then
    [data: d] with [d] on one line, is handled exactly as the earlier
    client handles the plain body [d]. *)
Theorem jsonRpcRequest_event_frame (status : Z) (statusText d : string) :
  d ≠ "" →
  "010"%char ∉ String.list_ascii_of_string d →
  "013"%char ∉ String.list_ascii_of_string d →
  jsonRpcRequest JSON_parse JSON_stringify
    (FetchResponse true status statusText ("event: message" ++ newline ++ "data: " ++ d)) =
  jsonRpcRequest_plain JSON_parse JSON_stringify (FetchResponse true status statusText d).
Proof.
  intros Hd Hn Hr. unfold jsonRpcRequest, jsonRpcRequest_plain.
  by rewrite dataMatch_event_frame.
Qed.

(** X7: a body with no [data: ] line is parsed as plain JSON; the
    result is the earlier client's when that succeeds, and every failure
    becomes [Failed to parse MCP response: ] followed by the first 200
    characters of the body. *)
Theorem jsonRpcRequest_plain_body (status : Z) (statusText text : string) :
  dataMatch text = None →
  jsonRpcRequest JSON_parse JSON_stringify (FetchResponse true status statusText text) =
    match jsonRpcRequest_plain JSON_parse JSON_stringify
            (FetchResponse true status statusText text) with
    | inr v => inr v
    | inl _ => inl (Error ("Failed to parse MCP response: " ++ String.substring 0 200 text))
    end.
Proof.
  intros H. unfold jsonRpcRequest, jsonRpcRequest_plain. rewrite H.
  destruct (JSON_parse text) as [m|r]; [done|].
  by destruct (checkEnvelope JSON_stringify r).
Qed.

(** X8: a reply whose [error] member is truthy is reported as
    [MCP error: ...] when it came in a [data: ] line, but as
    [Failed to parse MCP response: ...] when it came as a plain body. *)
Theorem jsonRpcRequest_server_error (status : Z) (statusText text : string)
    (r : jsval) :
  truthy (get r "error") = true →
  (∀ d, dataMatch text = Some d → JSON_parse d = inr r →
     jsonRpcRequest JSON_parse JSON_stringify (FetchResponse true status statusText text) =
       inl (Error (mcpErrorMessage JSON_stringify (get r "error")))) ∧
  (dataMatch text = None → JSON_parse text = inr r →
     jsonRpcRequest JSON_parse JSON_stringify (FetchResponse true status statusText text) =
       inl (Error ("Failed to parse MCP response: " ++ String.substring 0 200 text))).
Proof.
  intros He. assert (Hr : nullish r = false) by (by destruct r).
  assert (Hc : checkEnvelope JSON_stringify r =
               inl (Error (mcpErrorMessage JSON_stringify (get r "error")))).
  { unfold checkEnvelope. rewrite getp_defined by done. by rewrite He. }
  split.
  - intros d Hm Hp. unfold jsonRpcRequest. by rewrite Hm, Hp, Hc.
  - intros Hm Hp. unfold jsonRpcRequest. by rewrite Hm, Hp, Hc.
Qed.

(** X9: when every content item is a text item (its [type] is ['text'],
    whatever its other members), [execute] returns the items' [text]
    members joined by newlines, or the serialised content when that join
    is empty. *)
Theorem executeTool_text_reply (out : FetchOutcome) (result : jsval)
    (items : list jsval) :
  jsonRpcRequest JSON_parse JSON_stringify out = inr result →
  get result "content" = JArray items →
  Forall (fun c => is_literal "text" (get c "type") = true) items →
  executeTool JSON_parse JSON_stringify out =
    inr (let j := js_join newline (map (fun c => get c "text") items) in
         if String.eqb j "" then JString (JSON_stringify (JArray items))
         else JString j).
Proof.
  intros Hq Hc Ht. unfold executeTool. rewrite Hq.
  assert (Hr : nullish result = false) by (destruct result; simpl in *; congruence).
  rewrite getp_defined, Hc by done.
  assert (Hn : Forall (fun c => nullish c = false) items).
  { eapply Forall_impl; [exact Ht|]. intros c Hc'. by destruct c. }
  rewrite filterText_ok by done.
  destruct (text_items_filter_find items Ht) as [-> ->].
  reflexivity.
Qed.

(** X10: when no content item is [null] or [undefined] and the first
    image item has truthy [data], [execute] returns
    [{ text, image, mimeType }] with [text] the text items' [text] joined
    by newlines (['Image captured'] when that is empty), [image] the
    item's [data], and [mimeType] the item's own when truthy, otherwise
    ['image/png']. *)
Theorem executeTool_image_reply (out : FetchOutcome) (result img : jsval)
    (items : list jsval) :
  jsonRpcRequest JSON_parse JSON_stringify out = inr result →
  get result "content" = JArray items →
  Forall (fun c => nullish c = false) items →
  List.find (fun c => is_literal "image" (get c "type")) items = Some img →
  truthy (get img "data") = true →
  executeTool JSON_parse JSON_stringify out =
    inr (JObject
      [("text",
        JString (let j := js_join newline
                            (map (fun c => get c "text")
                               (filter (fun c => is_literal "text" (get c "type") = true)
                                  items)) in
                 if String.eqb j "" then "Image captured" else j));
       ("image", get img "data");
       ("mimeType", if truthy (get img "mimeType") then get img "mimeType"
                    else JString "image/png")]).
Proof.
  intros Hq Hc Hn Hf Hd. unfold executeTool. rewrite Hq.
  assert (Hr : nullish result = false) by (destruct result; simpl in *; congruence).
  rewrite getp_defined, Hc by done. rewrite filterText_ok by done.
  rewrite Hf, Hd. reflexivity.
Qed.

(** X11: a [null] or [undefined] item anywhere in the content makes
    [execute] throw a [TypeError], whatever the other items are. *)
Theorem executeTool_nullish_item (out : FetchOutcome) (result : jsval)
    (items : list jsval) :
  jsonRpcRequest JSON_parse JSON_stringify out = inr result →
  get result "content" = JArray items →
  Exists (fun c => nullish c = true) items →
  ∃ m, executeTool JSON_parse JSON_stringify out = inl (TypeError m).
Proof.
  intros Hq Hc Hn. unfold executeTool. rewrite Hq.
  assert (Hr : nullish result = false) by (destruct result; simpl in *; congruence).
  rewrite getp_defined, Hc by done.
  destruct (filterText_nullish items Hn) as [m Hm]. rewrite Hm. by eexists.
Qed.

(** X12: a content that is present but not an array makes [execute]
    throw [TypeError: result.content?.filter is not a function]. *)
Theorem executeTool_non_array_content (out : FetchOutcome) (result : jsval) :
  jsonRpcRequest JSON_parse JSON_stringify out = inr result →
  nullish (get result "content") = false →
  (∀ l, get result "content" ≠ JArray l) →
  executeTool JSON_parse JSON_stringify out =
    inl (TypeError "result.content?.filter is not a function").
Proof.
  intros Hq Hn Ha. unfold executeTool. rewrite Hq.
  assert (Hr : nullish result = false) by (destruct result; simpl in *; congruence).
  rewrite getp_defined by done.
  destruct (get result "content"); try discriminate; try done.
  exfalso. by apply (Ha elems).
Qed.

(** X13: a reply with no [result] makes [execute] throw a [TypeError];
    a result with no [content] makes it return [undefined]. *)
Theorem executeTool_missing_result_or_content (out : FetchOutcome) (result : jsval) :
  jsonRpcRequest JSON_parse JSON_stringify out = inr result →
  (nullish result = true →
     ∃ m, executeTool JSON_parse JSON_stringify out = inl (TypeError m)) ∧
  (nullish result = false → get result "content" = JUndefined →
     executeTool JSON_parse JSON_stringify out = inr JUndefined).
Proof.
  intros Hq. unfold executeTool. rewrite Hq. split.
  - intros Hn. destruct result; try discriminate; by eexists.
  - intros Hn Hc. rewrite getp_defined, Hc by done. reflexivity.
Qed.

End BridgeExtras.

Lemma jsonRpcRequest_event_frame_witness :
  "{}" ≠ "" ∧ ("010"%char ∉ String.list_ascii_of_string "{}") ∧
  ("013"%char ∉ String.list_ascii_of_string "{}") ∧
  jsonRpcRequest (parse_as (rpc_result (JNumber 1))) const_stringify
    (FetchResponse true 200 "OK" ("event: message" ++ newline ++ "data: " ++ "{}")) =
  jsonRpcRequest_plain (parse_as (rpc_result (JNumber 1))) const_stringify
    (FetchResponse true 200 "OK" "{}").
Proof.
  assert (H1 : "{}" ≠ "") by discriminate.
  assert (H2 : "010"%char ∉ String.list_ascii_of_string "{}")
    by (apply (bool_decide_unpack _); by vm_compute).
  assert (H3 : "013"%char ∉ String.list_ascii_of_string "{}")
    by (apply (bool_decide_unpack _); by vm_compute).
  split; [exact H1|]. split; [exact H2|]. split; [exact H3|].
  exact (jsonRpcRequest_event_frame _ _ 200 "OK" "{}" H1 H2 H3).
Defined.


Section CatalogExtras.

Context (JSON_parse : string -> string + jsval) (JSON_stringify : jsval -> string).

Lemma convertTools_ok (l : list jsval) (m : gmap string ToolDef) :
  Forall (fun t => nullish t = false) l →
  convertTools l m = inr (foldl insertTool m l).
Proof.
  intros Hl. revert m. induction Hl as [|t l Ht _ IH]; intros m; [done|].
  cbn [convertTools]. rewrite getp_defined by done. apply IH.
Qed.

Lemma convertTools_nullish (l : list jsval) (m : gmap string ToolDef) :
  Exists (fun t => nullish t = true) l →
  ∃ msg, convertTools l m = inl (TypeError msg).
Proof.
  intros Hl. revert m. induction Hl as [t l Ht|t l _ IH]; intros m; cbn [convertTools].
  - destruct t; try discriminate; by eexists.
  - destruct (nullish t) eqn:Ht.
    + destruct t; try discriminate; by eexists.
    + rewrite getp_defined by done. apply IH.
Qed.

Lemma lookup_foldl_insertTool (l : list jsval) (m : gmap string ToolDef) (k : string) :
  foldl insertTool m l !! k =
    match last (filter (fun t => toolKey t = k) l) with
    | Some t => Some (toolDefOf t)
    | None => m !! k
    end.
Proof.
  revert m. induction l as [|t l IH]; intros m; [done|]. cbn [foldl].
  rewrite IH. unfold insertTool.
  destruct (decide (toolKey t = k)) as [<-|Hne].
  - rewrite filter_cons_True by done. rewrite last_cons.
    destruct (last _); [done|]. by rewrite lookup_insert_eq.
  - rewrite filter_cons_False by done. by rewrite lookup_insert_ne.
Qed.

Lemma convertTools_size (l : list jsval) (m ts : gmap string ToolDef) :
  convertTools l m = inr ts → (size ts ≤ size m + length l)%nat.
Proof.
  revert m. induction l as [|t l IH]; intros m; cbn [convertTools].
  - intros [= ->]. simpl. lia.
  - destruct (getp t "inputSchema"); [discriminate|]. intros H.
    specialize (IH _ H). rewrite map_size_insert in IH. simpl.
    destruct (m !! _); simpl in IH; lia.
Qed.

Lemma length_list_ascii_of_string (s : string) :
  length (String.list_ascii_of_string s) = String.length s.
Proof. induction s as [|c s IH]; [done|]. simpl. by rewrite IH. Qed.

(** X14: for a [tools/list] reply whose [tools] is an array of objects,
    [createMCPTools] succeeds with [toolCount] the array's length, and
    the tool stored under a name is built from the last entry of that
    name (a later entry replaces an earlier one). *)
Theorem createMCPTools_array_catalog (out : FetchOutcome) (r : jsval)
    (l : list jsval) :
  jsonRpcRequest JSON_parse JSON_stringify out = inr r →
  get r "tools" = JArray l →
  Forall (fun t => nullish t = false) l →
  ∃ ts, createMCPTools JSON_parse JSON_stringify out = inr (ts, length l) ∧
        ∀ k, ts !! k = toolDefOf <$> last (filter (fun t => toolKey t = k) l).
Proof.
  intros Hq Ht Hl. unfold createMCPTools. rewrite Hq.
  assert (Hr : nullish r = false) by (destruct r; simpl in *; congruence).
  rewrite getp_defined, Ht by done. cbn [getp].
  rewrite convertTools_ok by done.
  eexists. split; [reflexivity|]. intros k.
  rewrite lookup_foldl_insertTool. by destruct (last _).
Qed.

(** X15: a [null] or [undefined] entry in the [tools] array makes
    [createMCPTools] throw a [TypeError], so [POST] answers 500. *)
Theorem createMCPTools_nullish_entry (out : FetchOutcome) (r : jsval)
    (l : list jsval) :
  jsonRpcRequest JSON_parse JSON_stringify out = inr r →
  get r "tools" = JArray l →
  Exists (fun t => nullish t = true) l →
  ∃ m, createMCPTools JSON_parse JSON_stringify out = inl (TypeError m) ∧
       POST JSON_parse JSON_stringify out = JsonResponse 500 (errorBody (TypeError m)).
Proof.
  intros Hq Ht Hl.
  assert (Hc : ∃ m, createMCPTools JSON_parse JSON_stringify out = inl (TypeError m)).
  { unfold createMCPTools. rewrite Hq.
    assert (Hr : nullish r = false) by (destruct r; simpl in *; congruence).
    rewrite getp_defined, Ht by done. cbn [getp].
    destruct (convertTools_nullish l ∅ Hl) as [m Hm]. rewrite Hm. by eexists. }
  destruct Hc as [m Hm]. exists m. split; [done|]. unfold POST. by rewrite Hm.
Qed.

(** X16: unless the reply's [tools] is an array or a string,
    [createMCPTools] throws a [TypeError] (a missing [result] or
    [tools] included). *)
Theorem createMCPTools_tools_not_iterable (out : FetchOutcome) (r : jsval) :
  jsonRpcRequest JSON_parse JSON_stringify out = inr r →
  (∀ l, get r "tools" ≠ JArray l) → (∀ s, get r "tools" ≠ JString s) →
  ∃ m, createMCPTools JSON_parse JSON_stringify out = inl (TypeError m).
Proof.
  intros Hq Ha Hs. unfold createMCPTools. rewrite Hq.
  destruct (nullish r) eqn:Hr.
  { destruct r; try discriminate; by eexists. }
  rewrite getp_defined by done.
  destruct (get r "tools") eqn:E; try (by eexists).
  - exfalso. by apply (Hs s).
  - exfalso. by apply (Ha elems).
Qed.

(** X17: the number of tools [prepareStep] enables never exceeds the
    number of stored tools, which never exceeds the [toolCount] that
    [createMCPTools] reports. *)
Theorem enabled_count_le_toolCount (out : FetchOutcome)
    (ts : gmap string ToolDef) (n : nat) (h : list Step) :
  createMCPTools JSON_parse JSON_stringify out = inr (ts, n) →
  (size (getEnabledTools ts h) ≤ size ts)%nat ∧ (size ts ≤ n)%nat.
Proof.
  intros Hc. split; [apply map_size_filter|].
  unfold createMCPTools in Hc.
  repeat (case_match; try discriminate).
  all: injection Hc as <- <-;
    match goal with H : convertTools _ _ = inr _ |- _ => apply convertTools_size in H end.
  all: rewrite ?map_size_empty, ?length_map, ?length_list_ascii_of_string in *; lia.
Qed.

End CatalogExtras.

Section MessageExtras.

Lemma pretty_N_go_no_dash (x : N) (s : string) :
  "-"%char ∉ String.list_ascii_of_string s →
  "-"%char ∉ String.list_ascii_of_string (pretty_N_go x s).
Proof.
  revert s. induction (N.lt_wf_0 x) as [x _ IH]; intros s Hs.
  destruct (decide (x = 0)%N) as [->|Hx]; [by rewrite pretty_N_go_0|].
  rewrite pretty_N_go_step by lia. apply IH; [apply N.div_lt; lia|].
  cbn [String.list_ascii_of_string]. rewrite elem_of_cons. intros [E|E]; [|done].
  revert E. unfold pretty_N_char. repeat case_match; discriminate.
Qed.

Lemma pretty_nat_no_dash (n : nat) :
  "-"%char ∉ String.list_ascii_of_string (pretty n).
Proof.
  change (pretty n) with
    (if decide (N.of_nat n = 0%N) then "0" else pretty_N_go (N.of_nat n) "").
  case_decide.
  - apply (bool_decide_unpack _). by vm_compute.
  - apply pretty_N_go_no_dash. apply (bool_decide_unpack _). by vm_compute.
Qed.

Lemma split_at_dash (a c b d : string) :
  "-"%char ∉ String.list_ascii_of_string a →
  "-"%char ∉ String.list_ascii_of_string c →
  a ++ String "-"%char b = c ++ String "-"%char d → a = c.
Proof.
  revert c. induction a as [|x a IH]; intros [|y c] Ha Hc E.
  - done.
  - rewrite sapp_nil, sapp_cons in E. injection E as <- _.
    exfalso. apply Hc. cbn. by left.
  - rewrite sapp_nil, sapp_cons in E. injection E as -> _.
    exfalso. apply Ha. cbn. by left.
  - rewrite !sapp_cons in E. injection E as -> E.
    cbn [String.list_ascii_of_string] in Ha, Hc. rewrite elem_of_cons in Ha, Hc.
    f_equal. apply IH; [tauto|tauto|done].
Qed.

(** X19: two different messages without an id never get the same
    generated id, whatever [Date.now()] returns while they are
    converted. *)
Theorem toUIMessages_generated_ids_distinct (now : nat -> Z)
    (messages : list RawMessage) (i j : nat) (mi mj : RawMessage) :
  messages !! i = Some mi → messages !! j = Some mj → i ≠ j →
  (msgId mi = None ∨ msgId mi = Some "") →
  (msgId mj = None ∨ msgId mj = Some "") →
  ∃ ui uj, toUIMessages now messages !! i = Some ui ∧
           toUIMessages now messages !! j = Some uj ∧ ui_id ui ≠ ui_id uj.
Proof.
  intros Hi Hj Hij Hmi Hmj. unfold toUIMessages. rewrite !list_lookup_imap, Hi, Hj.
  do 2 eexists. split; [reflexivity|]. split; [reflexivity|]. cbn [ui_id].
  assert (Hg : ∀ m k, msgId m = None ∨ msgId m = Some "" →
            match msgId m with
            | Some s => if String.eqb s "" then "msg-" ++ pretty k ++ "-" ++ pretty (now k) else s
            | None => "msg-" ++ pretty k ++ "-" ++ pretty (now k)
            end = "msg-" ++ pretty k ++ "-" ++ pretty (now k)).
  { intros m k [-> | ->]; reflexivity. }
  rewrite (Hg mi i Hmi), (Hg mj j Hmj). intros E.
  apply (inj (String.append "msg-")) in E.
  apply split_at_dash in E; [|apply pretty_nat_no_dash..].
  by apply (inj pretty) in E.
Qed.

End MessageExtras.


Lemma jsonRpcRequest_plain_body_witness :
  dataMatch "{}" = None ∧
  jsonRpcRequest (parse_as rpc_error) const_stringify (FetchResponse true 200 "OK" "{}") =
    match jsonRpcRequest_plain (parse_as rpc_error) const_stringify
            (FetchResponse true 200 "OK" "{}") with
    | inr v => inr v
    | inl _ => inl (Error ("Failed to parse MCP response: " ++ String.substring 0 200 "{}"))
    end.
Proof.
  assert (H : dataMatch "{}" = None) by reflexivity.
  split; [exact H|]. exact (jsonRpcRequest_plain_body _ _ 200 "OK" "{}" H).
Defined.

Lemma jsonRpcRequest_server_error_witness :
  truthy (get rpc_error "error") = true ∧
  ((∀ d, dataMatch "data: {}" = Some d → parse_as rpc_error d = inr rpc_error →
     jsonRpcRequest (parse_as rpc_error) const_stringify sample_response =
       inl (Error (mcpErrorMessage const_stringify (get rpc_error "error")))) ∧
   (dataMatch "data: {}" = None → parse_as rpc_error "data: {}" = inr rpc_error →
     jsonRpcRequest (parse_as rpc_error) const_stringify sample_response =
       inl (Error ("Failed to parse MCP response: " ++ String.substring 0 200 "data: {}")))).
Proof.
  assert (H : truthy (get rpc_error "error") = true) by reflexivity.
  split; [exact H|].
  exact (jsonRpcRequest_server_error (parse_as rpc_error) const_stringify 200 "OK" "data: {}" rpc_error H).
Defined.

Lemma executeTool_text_reply_witness :
  let items := [JObject [("type", JString "text"); ("text", JString "a");
                         ("annotations", JObject [])];
                JObject [("type", JString "text"); ("text", JNumber 3)]] in
  let P := parse_as (rpc_result (call_result (JArray items))) in
  jsonRpcRequest P const_stringify sample_response = inr (call_result (JArray items)) ∧
  get (call_result (JArray items)) "content" = JArray items ∧
  Forall (fun c => is_literal "text" (get c "type") = true) items ∧
  executeTool P const_stringify sample_response =
    inr (let j := js_join newline (map (fun c => get c "text") items) in
         if String.eqb j "" then JString (const_stringify (JArray items))
         else JString j).
Proof.
  intros items P.
  assert (H1 : jsonRpcRequest P const_stringify sample_response =
               inr (call_result (JArray items))) by reflexivity.
  assert (H2 : get (call_result (JArray items)) "content" = JArray items) by reflexivity.
  assert (H3 : Forall (fun c => is_literal "text" (get c "type") = true) items)
    by (repeat constructor).
  do 3 (split; [assumption|]).
  exact (executeTool_text_reply P const_stringify sample_response _ _ H1 H2 H3).
Defined.

Lemma executeTool_image_reply_witness :
  let items := [textItem "a"; image_item] in
  let c := call_result (JArray items) in
  let P := parse_as (rpc_result c) in
  jsonRpcRequest P const_stringify sample_response = inr c ∧
  get c "content" = JArray items ∧
  Forall (fun t => nullish t = false) items ∧
  List.find (fun t => is_literal "image" (get t "type")) items = Some image_item ∧
  truthy (get image_item "data") = true ∧
  executeTool P const_stringify sample_response =
    inr (JObject
      [("text",
        JString (let j := js_join newline
                            (map (fun c => get c "text")
                               (filter (fun c => is_literal "text" (get c "type") = true)
                                  items)) in
                 if String.eqb j "" then "Image captured" else j));
       ("image", get image_item "data");
       ("mimeType", if truthy (get image_item "mimeType") then get image_item "mimeType"
                    else JString "image/png")]).
Proof.
  intros items c P.
  assert (H1 : jsonRpcRequest P const_stringify sample_response = inr c) by reflexivity.
  assert (H2 : get c "content" = JArray items) by reflexivity.
  assert (H3 : Forall (fun t => nullish t = false) items) by (repeat constructor).
  assert (H4 : List.find (fun t => is_literal "image" (get t "type")) items =
               Some image_item) by reflexivity.
  assert (H5 : truthy (get image_item "data") = true) by reflexivity.
  do 5 (split; [assumption|]).
  exact (executeTool_image_reply P const_stringify sample_response _ _ _ H1 H2 H3 H4 H5).
Defined.

Lemma executeTool_nullish_item_witness :
  let c := call_result (JArray [textItem "a"; JNull; image_item]) in
  let P := parse_as (rpc_result c) in
  jsonRpcRequest P const_stringify sample_response = inr c ∧
  get c "content" = JArray [textItem "a"; JNull; image_item] ∧
  Exists (fun t => nullish t = true) [textItem "a"; JNull; image_item] ∧
  ∃ m, executeTool P const_stringify sample_response = inl (TypeError m).
Proof.
  intros c P.
  assert (H1 : jsonRpcRequest P const_stringify sample_response = inr c) by reflexivity.
  assert (H2 : get c "content" = JArray [textItem "a"; JNull; image_item]) by reflexivity.
  assert (H3 : Exists (fun t => nullish t = true) [textItem "a"; JNull; image_item])
    by (right; left; reflexivity).
  do 3 (split; [assumption|]).
  exact (executeTool_nullish_item P const_stringify sample_response _ _ H1 H2 H3).
Defined.

Lemma executeTool_non_array_content_witness :
  let c := call_result (JString "done") in
  let P := parse_as (rpc_result c) in
  jsonRpcRequest P const_stringify sample_response = inr c ∧
  nullish (get c "content") = false ∧
  (∀ l, get c "content" ≠ JArray l) ∧
  executeTool P const_stringify sample_response =
    inl (TypeError "result.content?.filter is not a function").
Proof.
  intros c P.
  assert (H1 : jsonRpcRequest P const_stringify sample_response = inr c) by reflexivity.
  assert (H2 : nullish (get c "content") = false) by reflexivity.
  assert (H3 : ∀ l, get c "content" ≠ JArray l) by (intros l; discriminate).
  do 3 (split; [assumption|]).
  exact (executeTool_non_array_content P const_stringify sample_response _ H1 H2 H3).
Defined.

Lemma executeTool_missing_result_or_content_witness :
  let P := parse_as (JObject [("jsonrpc", JString "2.0")]) in
  jsonRpcRequest P const_stringify sample_response = inr JUndefined ∧
  (nullish JUndefined = true →
     ∃ m, executeTool P const_stringify sample_response = inl (TypeError m)) ∧
  (nullish JUndefined = false → get JUndefined "content" = JUndefined →
     executeTool P const_stringify sample_response = inr JUndefined).
Proof.
  intros P.
  assert (H1 : jsonRpcRequest P const_stringify sample_response = inr JUndefined)
    by reflexivity.
  split; [exact H1|].
  exact (executeTool_missing_result_or_content P const_stringify sample_response _ H1).
Defined.

Lemma createMCPTools_array_catalog_witness :
  let r := JObject [("tools", JArray [tool_entry "a"; tool_entry "b"; tool_entry "a"])] in
  let P := parse_as (rpc_result r) in
  jsonRpcRequest P const_stringify sample_response = inr r ∧
  get r "tools" = JArray [tool_entry "a"; tool_entry "b"; tool_entry "a"] ∧
  Forall (fun t => nullish t = false) [tool_entry "a"; tool_entry "b"; tool_entry "a"] ∧
  ∃ ts, createMCPTools P const_stringify sample_response =
          inr (ts, length [tool_entry "a"; tool_entry "b"; tool_entry "a"]) ∧
        ∀ k, ts !! k = toolDefOf <$> last (filter (fun t => toolKey t = k)
                         [tool_entry "a"; tool_entry "b"; tool_entry "a"]).
Proof.
  intros r P.
  assert (H1 : jsonRpcRequest P const_stringify sample_response = inr r) by reflexivity.
  assert (H2 : get r "tools" = JArray [tool_entry "a"; tool_entry "b"; tool_entry "a"])
    by reflexivity.
  assert (H3 : Forall (fun t => nullish t = false)
                 [tool_entry "a"; tool_entry "b"; tool_entry "a"]) by (repeat constructor).
  do 3 (split; [assumption|]).
  exact (createMCPTools_array_catalog P const_stringify sample_response _ _ H1 H2 H3).
Defined.

Lemma createMCPTools_nullish_entry_witness :
  let r := JObject [("tools", JArray [tool_entry "a"; JNull])] in
  let P := parse_as (rpc_result r) in
  jsonRpcRequest P const_stringify sample_response = inr r ∧
  get r "tools" = JArray [tool_entry "a"; JNull] ∧
  Exists (fun t => nullish t = true) [tool_entry "a"; JNull] ∧
  ∃ m, createMCPTools P const_stringify sample_response = inl (TypeError m) ∧
       POST P const_stringify sample_response = JsonResponse 500 (errorBody (TypeError m)).
Proof.
  intros r P.
  assert (H1 : jsonRpcRequest P const_stringify sample_response = inr r) by reflexivity.
  assert (H2 : get r "tools" = JArray [tool_entry "a"; JNull]) by reflexivity.
  assert (H3 : Exists (fun t => nullish t = true) [tool_entry "a"; JNull])
    by (right; left; reflexivity).
  do 3 (split; [assumption|]).
  exact (createMCPTools_nullish_entry P const_stringify sample_response _ _ H1 H2 H3).
Defined.

Lemma createMCPTools_tools_not_iterable_witness :
  let r := JObject [("tools", JObject [])] in
  let P := parse_as (rpc_result r) in
  jsonRpcRequest P const_stringify sample_response = inr r ∧
  (∀ l, get r "tools" ≠ JArray l) ∧ (∀ s, get r "tools" ≠ JString s) ∧
  ∃ m, createMCPTools P const_stringify sample_response = inl (TypeError m).
Proof.
  intros r P.
  assert (H1 : jsonRpcRequest P const_stringify sample_response = inr r) by reflexivity.
  assert (H2 : ∀ l, get r "tools" ≠ JArray l) by (intros l; discriminate).
  assert (H3 : ∀ s, get r "tools" ≠ JString s) by (intros s; discriminate).
  do 3 (split; [assumption|]).
  exact (createMCPTools_tools_not_iterable P const_stringify sample_response _ H1 H2 H3).
Defined.

Lemma enabled_count_le_toolCount_witness :
  let r := JObject [("tools", JArray [tool_entry "a"; tool_entry "a"])] in
  let P := parse_as (rpc_result r) in
  let ts := <["a" := toolDefOf (tool_entry "a")]> (∅ : gmap string ToolDef) in
  createMCPTools P const_stringify sample_response = inr (ts, 2%nat) ∧
  (size (getEnabledTools ts []) ≤ size ts)%nat ∧ (size ts ≤ 2)%nat.
Proof.
  intros r P ts.
  assert (H : createMCPTools P const_stringify sample_response = inr (ts, 2%nat))
    by reflexivity.
  split; [exact H|].
  exact (enabled_count_le_toolCount P const_stringify sample_response ts 2 [] H).
Defined.

Lemma toUIMessages_generated_ids_distinct_witness :
  let ms := [mkRawMessage "user" "hi" None; mkRawMessage "assistant" "hello" (Some "")] in
  ms !! 0%nat = Some (mkRawMessage "user" "hi" None) ∧
  ms !! 1%nat = Some (mkRawMessage "assistant" "hello" (Some "")) ∧
  0%nat ≠ 1%nat ∧
  ∃ ui uj, toUIMessages (fun _ => 1700000000000%Z) ms !! 0%nat = Some ui ∧
           toUIMessages (fun _ => 1700000000000%Z) ms !! 1%nat = Some uj ∧
           ui_id ui ≠ ui_id uj.
Proof.
  intros ms.
  assert (H1 : ms !! 0%nat = Some (mkRawMessage "user" "hi" None)) by reflexivity.
  assert (H2 : ms !! 1%nat = Some (mkRawMessage "assistant" "hello" (Some "")))
    by reflexivity.
  assert (H3 : 0%nat ≠ 1%nat) by lia.
  do 3 (split; [assumption|]).
  exact (toUIMessages_generated_ids_distinct _ ms 0 1 _ _ H1 H2 H3 (or_introl eq_refl)
           (or_intror eq_refl)).
Defined.

(* ------------------------------------------------------------------ *)
(** ** The chat endpoint when the catalog cannot be loaded *)

Section EndpointClaims.

Lemma createMCPTools_fails_with_request (JSON_parse : string -> string + jsval)
    (JSON_stringify : jsval -> string) (out : FetchOutcome) (e : exn) :
  jsonRpcRequest JSON_parse JSON_stringify out = inl e →
  createMCPTools JSON_parse JSON_stringify out = inl e.
Proof. intros H. unfold createMCPTools. by rewrite H. Qed.

(** C1 (counterexample): when the [tools/list] fetch rejects with a
    network error, [POST] answers with the HTTP 500 JSON error response,
    not with a conversational response over an empty tool set. *)
Lemma POST_catalog_network_error :
  POST (fun _ => inl "Unexpected token") (fun _ => "")
       (FetchRejected (TypeError "fetch failed")) =
    JsonResponse 500
      (JObject [("error", JString "Failed to process chat request");
                ("details", JString "fetch failed")]) ∧
  POST (fun _ => inl "Unexpected token") (fun _ => "")
       (FetchRejected (TypeError "fetch failed")) ≠ AgentStream ∅ 0 10.
Proof. split; [reflexivity | discriminate]. Qed.

(** C1 (amended): when the MCP catalog cannot be loaded (the [tools/list]
    request fails: fetch rejected, HTTP status not ok, body not parseable,
    JSON-RPC error envelope; or the reply carries no usable tool list: no
    [result], no [tools], a [tools] that is not an array, or an array with
    a [null] or [undefined] entry), [POST] returns HTTP 500 with body
    [{error: 'Failed to process chat request', details: <message>}]. *)
Theorem POST_catalog_failure_is_error_response
    (JSON_parse : string -> string + jsval) (JSON_stringify : jsval -> string)
    (out : FetchOutcome) :
  (∀ e, jsonRpcRequest JSON_parse JSON_stringify out = inl e ∨
        createMCPTools JSON_parse JSON_stringify out = inl e →
        POST JSON_parse JSON_stringify out =
          JsonResponse 500
            (JObject [("error", JString "Failed to process chat request");
                      ("details", JString (exn_message e))])) ∧
  (∀ r, jsonRpcRequest JSON_parse JSON_stringify out = inr r →
        (∀ l, get r "tools" = JArray l → Exists (fun t => nullish t = true) l) →
        ∃ e, createMCPTools JSON_parse JSON_stringify out = inl e ∧
             POST JSON_parse JSON_stringify out =
               JsonResponse 500
                 (JObject [("error", JString "Failed to process chat request");
                           ("details", JString (exn_message e))])).
Proof.
  assert (Hpost : ∀ e, createMCPTools JSON_parse JSON_stringify out = inl e →
            POST JSON_parse JSON_stringify out =
              JsonResponse 500
                (JObject [("error", JString "Failed to process chat request");
                          ("details", JString (exn_message e))])).
  { intros e Hc. unfold POST. rewrite Hc. reflexivity. }
  split.
  - intros e [H|H]; apply Hpost; [by apply createMCPTools_fails_with_request|exact H].
  - intros r Hq Hl.
    assert (Hc : ∃ e, createMCPTools JSON_parse JSON_stringify out = inl e).
    { unfold createMCPTools. rewrite Hq.
      destruct (nullish r) eqn:Hr.
      { destruct r; try discriminate; by eexists. }
      rewrite getp_defined by done.
      destruct (get r "tools") as [| | | |s|l|fs] eqn:E; try (by eexists).
      - cbn [getp]. destruct (convertTools _ ∅); by eexists.
      - cbn [getp]. destruct (convertTools_nullish l ∅ (Hl l eq_refl)) as [m Hm].
        rewrite Hm. by eexists. }
    destruct Hc as [e Hc]. exists e. split; [exact Hc|]. by apply Hpost.
Qed.

Lemma POST_catalog_failure_is_error_response_witness :
  (jsonRpcRequest (fun _ => inl "Unexpected token") (fun _ => "")
     (FetchResponse false 503 "Service Unavailable" "") =
     inl (Error "MCP request failed: 503 Service Unavailable") ∧
   POST (fun _ => inl "Unexpected token") (fun _ => "")
     (FetchResponse false 503 "Service Unavailable" "") =
     JsonResponse 500
       (JObject [("error", JString "Failed to process chat request");
                 ("details", JString "MCP request failed: 503 Service Unavailable")])) ∧
  (jsonRpcRequest (parse_as (rpc_result (JObject [("tools", JString "abc")]))) const_stringify
     sample_response = inr (JObject [("tools", JString "abc")]) ∧
   ∃ e, createMCPTools (parse_as (rpc_result (JObject [("tools", JString "abc")])))
          const_stringify sample_response = inl e ∧
        POST (parse_as (rpc_result (JObject [("tools", JString "abc")]))) const_stringify
          sample_response =
          JsonResponse 500
            (JObject [("error", JString "Failed to process chat request");
                      ("details", JString (exn_message e))])).
Proof.
  assert (H1 : jsonRpcRequest (fun _ => inl "Unexpected token") (fun _ => "")
                 (FetchResponse false 503 "Service Unavailable" "") =
                 inl (Error "MCP request failed: 503 Service Unavailable"))
    by (vm_compute; reflexivity).
  assert (H2 : jsonRpcRequest (parse_as (rpc_result (JObject [("tools", JString "abc")])))
                 const_stringify sample_response = inr (JObject [("tools", JString "abc")]))
    by reflexivity.
  assert (H3 : ∀ l, get (JObject [("tools", JString "abc")]) "tools" = JArray l →
                    Exists (fun t => nullish t = true) l) by discriminate.
  split.
  - split; [exact H1|].
    exact (proj1 (POST_catalog_failure_is_error_response _ _ _) _ (or_introl H1)).
  - split; [exact H2|].
    exact (proj2 (POST_catalog_failure_is_error_response _ _ _) _ H2 H3).
Defined.

End EndpointClaims.
